(** * DictDialogAgent: the reply cycle of [agentscope.agents.dict_dialog_agent]

    A shallow embedding of [DictDialogAgent.__init__] and
    [DictDialogAgent.reply], together with the collaborators the reply
    cycle consumes (the model wrapper's acquisition protocol, the message
    constructor, the memory and the prompt engine), and the properties the
    specification states about them. *)

From Stdlib Require Import String List ZArith Bool Lia.
Import ListNotations.
Local Open Scope string_scope.
Local Open Scope list_scope.

Set Implicit Arguments.
Set Warnings "-register-all,-notation-for-abbreviation".

(** ** Python values

    The objects a parse function or a fault handler can hand back to the
    agent: the JSON-shaped values of [json.loads], tuples (hashable, so they
    can be dict keys) and dicts with arbitrary keys.  A dict keeps its
    insertion order, so it is an association list.  Floats are left out: no
    branch of the agent looks at them. *)

Inductive value : Type :=
| VNone
| VBool (b : bool)
| VInt (z : Z)
| VStr (s : string)
| VList (items : list value)
| VTuple (items : list value)
| VDict (entries : list (value * value)).

(** [hash(k)] succeeds: the keys a dict can hold. *)
Fixpoint hashable (v : value) : bool :=
  match v with
  | VNone | VBool _ | VInt _ | VStr _ => true
  | VTuple items => forallb hashable items
  | VList _ | VDict _ => false
  end.

(** A value Python can build: every key of every dict inside it is hashable. *)
Fixpoint well_formed (v : value) : bool :=
  match v with
  | VNone | VBool _ | VInt _ | VStr _ => true
  | VList items | VTuple items => forallb well_formed items
  | VDict entries =>
      forallb (fun kv => hashable (fst kv) && well_formed (fst kv)
                         && well_formed (snd kv)) entries
  end.

(** [isinstance(v, str)] *)
Definition is_str (v : value) : bool :=
  match v with VStr _ => true | _ => false end.

(** [isinstance(v, dict)] *)
Definition is_dict (v : value) : bool :=
  match v with VDict _ => true | _ => false end.

(** [k == key] for a string [key]: only a [str] equals a [str]. *)
Definition key_is (key : string) (k : value) : bool :=
  match k with VStr s => String.eqb s key | _ => false end.

(** [key in d] *)
Definition dict_contains (key : string) (d : list (value * value)) : bool :=
  existsb (fun kv => key_is key (fst kv)) d.

(** [d[key]], [None] standing for [KeyError]. *)
Fixpoint dict_get (key : string) (d : list (value * value)) : option value :=
  match d with
  | [] => None
  | (k, v) :: rest => if key_is key k then Some v else dict_get key rest
  end.

(** ** Exceptions and results *)

Inductive exn : Type :=
| TypeError (message : string)
| KeyError (key : string).

Inductive result (A : Type) : Type :=
| Ok (a : A)
| Raise (e : exn).

Arguments Ok {A} a.
Arguments Raise {A} e.

Definition succeeds {A : Type} (r : result A) : bool :=
  match r with Ok _ => true | Raise _ => false end.

(** ** State and error monad

    Stateful, fallible code over a state of type [S]: a step either
    returns a value or raises, and leaves a state behind in both cases (a
    mutation made before an exception stays made). *)

Definition SE (S A : Type) : Type := S -> result A * S.

Definition ret {S A : Type} (a : A) : SE S A := fun s => (Ok a, s).

Definition raise {S A : Type} (e : exn) : SE S A := fun s => (Raise e, s).

Definition bind {S A B : Type} (m : SE S A) (k : A -> SE S B) : SE S B :=
  fun s =>
    match m s with
    | (Ok a, s') => k a s'
    | (Raise e, s') => (Raise e, s')
    end.

Definition lift_result {S A : Type} (r : result A) : SE S A := fun s => (r, s).

Declare Scope se_scope.
Delimit Scope se_scope with se.
Notation "x <- m ;; k" := (bind m (fun x => k))
  (at level 61, m at next level, right associativity) : se_scope.
Notation "m ;;; k" := (bind m (fun _ => k))
  (at level 61, right associativity) : se_scope.
Local Open Scope se_scope.

(** ** Messages *)

(** Modelled from the spec: the message class [Msg] of [agentscope.message],
    which the agent imports and which is not among the sources.  A Message
    holds the sender's name, a designated display-text value and an
    open-ended mapping of additional named fields; the constructor stores
    what it is given. *)
Record Msg : Type := mkMsg {
  msg_name : string;
  msg_content : value;
  msg_fields : list (string * value)
}.

(** The Message invariant of the data model: the display text is a string. *)
Definition display_text_is_string (m : Msg) : bool := is_str (msg_content m).

(** [**d] in a call: every key of [d] has to be a [str]. *)
Fixpoint keywords (d : list (value * value)) : result (list (string * value)) :=
  match d with
  | [] => Ok []
  | (VStr s, v) :: rest =>
      match keywords rest with
      | Ok kw => Ok ((s, v) :: kw)
      | Raise e => Raise e
      end
  | _ :: _ => Raise (TypeError "keywords must be strings")
  end.

(** The entries of a keyword mapping, seen again as dict entries. *)
Definition as_entries (kw : list (string * value)) : list (value * value) :=
  map (fun kv => (VStr (fst kv), snd kv)) kw.

(** [json.dumps] accepts as dict keys [str], [int], [bool] and [None] (and
    floats), and raises [TypeError] on any other key. *)
Definition json_key_ok (k : value) : bool :=
  match k with
  | VNone | VBool _ | VInt _ | VStr _ => true
  | VList _ | VTuple _ | VDict _ => false
  end.

Fixpoint json_serializable (v : value) : bool :=
  match v with
  | VNone | VBool _ | VInt _ | VStr _ => true
  | VList items | VTuple items => forallb json_serializable items
  | VDict entries =>
      forallb (fun kv => json_key_ok (fst kv) && json_serializable (snd kv))
              entries
  end.

(** [json.dumps(v, indent=4)]; the text goes to the debug log only, so the
    embedding keeps whether the call returns. *)
Definition json_dumps (v : value) : result unit :=
  if json_serializable v then Ok tt
  else Raise (TypeError "keys must be str, int, float, bool or None").

(** ** Configuration values *)

(** [PromptType] of [agentscope.prompt]: the two prompt layouts. *)
Inductive PromptType : Type := LIST | STRING.

(** A parse function: raw text to a record, [None] standing for the decode
    error it raises on malformed text. *)
Definition decoder : Type := string -> option value.

(** A fault handler: raw text to a record. *)
Definition handler : Type := string -> value.

(** The default of [fault_handler]: [lambda x: {"speak": x}]. *)
Definition default_fault_handler : handler :=
  fun x => VDict [(VStr "speak", VStr x)].

(** The default of [max_retries]. *)
Definition default_max_retries : Z := 3.

(** ** The agent *)

Section Agent.

(** The names of the parameters of [Msg.__init__] that are bound by
    position in the agent's calls: the parameter the instance itself is
    bound to, and the two that take the sender name and the display text.
    The declaration of [Msg] is not among the sources. *)
Variable msg_params : list string.

(** Prompt payloads, model objects and the state the model wrapper works
    on (the generation service behind it). *)
Variables prompt model_obj svc : Type.

(** What [AgentBase.__init__] leaves on the object. *)
Record AgentBase : Type := mkAgentBase {
  name : string;
  sys_prompt : option string;
  model : model_obj;
  memory : list Msg
}.

(** Modelled from the spec: [PromptEngine] of [agentscope.prompt], not
    among the sources; the Prompt Assembler with its layout. *)
Record PromptEngine : Type := mkPromptEngine {
  engine_model : model_obj;
  engine_prompt_type : option PromptType
}.

Record DictDialogAgent : Type := mkDictDialogAgent {
  base : AgentBase;
  parse_func : option decoder;
  fault_handler : option handler;
  max_retries : option Z;
  engine : PromptEngine
}.

(** [AgentBase.__init__], the constructor of [PromptEngine], [json.loads],
    [PromptEngine.join] and the call of the model wrapper are defined
    outside the sources.  The two constructors may raise. *)
Variable agent_base_init :
  string -> option value -> option string -> option (model_obj + string) ->
  bool -> option value -> result AgentBase.
Variable prompt_engine_init :
  model_obj -> option PromptType -> result PromptEngine.
Variable json_loads : decoder.
Variable engine_join : PromptEngine -> option string -> list Msg -> prompt.
Variable model_call :
  model_obj -> prompt -> option decoder -> option handler -> option Z ->
  SE svc value.

(** *** Construction *)

(** [self.model] on the object the base class has initialised. *)
Definition self_model (b : AgentBase) : model_obj := b.(model).

(** The body of [DictDialogAgent.__init__], every parameter bound: the base
    class initialises the object, the three arguments are recorded, and
    the prompt engine is built by
    [PromptEngine(self.model, prompt_type=prompt_type)]. *)
Definition init (name : string) (config : option value)
    (sys_prompt : option string) (model : option (model_obj + string))
    (use_memory : bool) (memory_config : option value)
    (parse_func : option decoder) (fault_handler : option handler)
    (max_retries : option Z) (prompt_type : option PromptType)
  : result DictDialogAgent :=
  match agent_base_init name config sys_prompt model use_memory
                        memory_config with
  | Ok b =>
      match prompt_engine_init (self_model b) prompt_type with
      | Ok e =>
          Ok {| base := b;
                parse_func := parse_func;
                fault_handler := fault_handler;
                max_retries := max_retries;
                engine := e |}
      | Raise e => Raise e
      end
  | Raise e => Raise e
  end.

(** The arguments of a call [DictDialogAgent(...)]: [None] for a parameter
    the caller leaves out. *)
Record init_args : Type := mkInitArgs {
  arg_name : option string;
  arg_config : option (option value);
  arg_sys_prompt : option (option string);
  arg_model : option (option (model_obj + string));
  arg_use_memory : option bool;
  arg_memory_config : option (option value);
  arg_parse_func : option (option decoder);
  arg_fault_handler : option (option handler);
  arg_max_retries : option (option Z);
  arg_prompt_type : option (option PromptType)
}.

Definition or_default {A : Type} (given : option A) (dflt : A) : A :=
  match given with Some a => a | None => dflt end.

(** The call [DictDialogAgent(...)]: the signature of [__init__] binds the
    arguments, a parameter left out takes its default, and [name] has
    none. *)
Definition construct (a : init_args) : result DictDialogAgent :=
  match a.(arg_name) with
  | None =>
      Raise (TypeError "missing 1 required positional argument: 'name'")
  | Some n =>
      init n
           (or_default a.(arg_config) None)
           (or_default a.(arg_sys_prompt) None)
           (or_default a.(arg_model) None)
           (or_default a.(arg_use_memory) true)
           (or_default a.(arg_memory_config) None)
           (or_default a.(arg_parse_func) (Some json_loads))
           (or_default a.(arg_fault_handler) (Some default_fault_handler))
           (or_default a.(arg_max_retries) (Some default_max_retries))
           (or_default a.(arg_prompt_type) (Some LIST))
  end.

(** *** The message builder *)

(** The call [Msg(name, content, **d)]: the keys of [d] are spread as
    keywords, and a keyword that names a parameter already bound by
    position (to the instance or to one of the two arguments) is
    refused. *)
Definition Msg_call (sender : string) (content : value)
    (d : list (value * value)) : result Msg :=
  match keywords d with
  | Ok kw =>
      if existsb (fun kv => existsb (String.eqb (fst kv)) msg_params) kw
      then Raise (TypeError "got multiple values for argument")
      else Ok {| msg_name := sender; msg_content := content;
                 msg_fields := kw |}
  | Raise e => Raise e
  end.

Definition entries_of (v : value) : list (value * value) :=
  match v with VDict d => d | _ => [] end.

(** Lines 144-149 of [reply]: the Message built from the response. *)
Definition build (sender : string) (response : value) : result Msg :=
  if is_dict response && dict_contains "speak" (entries_of response) then
    match dict_get "speak" (entries_of response) with
    | Some content => Msg_call sender content (entries_of response)
    | None => Raise (KeyError "speak")
    end
  else Msg_call sender response [].

(** The record takes the first branch of the builder: it is a mapping
    that contains the display-text key. *)
Definition has_speak (response : value) : bool :=
  is_dict response && dict_contains "speak" (entries_of response).

(** Every key of the mapping is a [str]. *)
Definition string_keyed (d : list (value * value)) : bool :=
  forallb (fun kv => is_str (fst kv)) d.

(** Some key of the mapping names a parameter of [Msg] that the call has
    bound by position. *)
Definition collides (d : list (value * value)) : bool :=
  existsb (fun kv => existsb (fun p => key_is p (fst kv)) msg_params) d.

(** The records whose entries the builder can hand to [Msg]: those it does
    not spread, and the string-keyed mappings free of such a key. *)
Definition spreadable (response : value) : bool :=
  negb (has_speak response)
  || (string_keyed (entries_of response)
      && negb (collides (entries_of response))).

(** What the caller hands to [reply], as the list of messages it adds to
    the memory. *)
Definition inputs (x : option Msg) : list Msg :=
  match x with Some input => [input] | None => [] end.

(** *** The reply cycle *)

(** The agent object, mutated through its memory, and the state behind the
    model wrapper. *)
Record world : Type := mkWorld {
  self : DictDialogAgent;
  service : svc
}.

Definition get_self : SE world DictDialogAgent := fun w => (Ok w.(self), w).

Definition with_memory (mem : list Msg) (a : DictDialogAgent)
  : DictDialogAgent :=
  {| base := {| name := a.(base).(name);
                sys_prompt := a.(base).(sys_prompt);
                model := a.(base).(model);
                memory := mem |};
     parse_func := a.(parse_func);
     fault_handler := a.(fault_handler);
     max_retries := a.(max_retries);
     engine := a.(engine) |}.

(** Modelled from the spec: [self.memory.add] and [self.memory.get_memory]
    of the memory class, not among the sources; the History Store's
    append and snapshot. *)
Definition memory_add (m : Msg) : SE world unit :=
  fun w =>
    (Ok tt,
     {| self := with_memory (w.(self).(base).(memory) ++ [m]) w.(self);
        service := w.(service) |}).

Definition get_memory : SE world (list Msg) :=
  fun w => (Ok w.(self).(base).(memory), w).

(** A step of the model wrapper, run on the service part of the world. *)
Definition on_service {A : Type} (m : SE svc A) : SE world A :=
  fun w =>
    let (r, s') := m w.(service) in
    (r, {| self := w.(self); service := s' |}).

(** [DictDialogAgent.reply]. *)
Definition reply (x : option Msg) : SE world Msg :=
  match x with
  | Some input => memory_add input
  | None => ret tt
  end ;;;
  this <- get_self ;;
  history <- get_memory ;;
  let prompt := engine_join this.(engine) this.(base).(sys_prompt) history in
  response <- on_service
                (model_call this.(base).(model) prompt this.(parse_func)
                            this.(fault_handler) this.(max_retries)) ;;
  lift_result (json_dumps response) ;;;
  msg <- lift_result (build this.(base).(name) response) ;;
  memory_add msg ;;;
  ret msg.

(** The response the model wrapper gives to the agent of [w] when the
    prompt is joined from [history]. *)
Definition acquired (w : world) (history : list Msg) : result value * svc :=
  let this := w.(self) in
  model_call this.(base).(model)
             (engine_join this.(engine) this.(base).(sys_prompt) history)
             this.(parse_func) this.(fault_handler) this.(max_retries)
             w.(service).

(** The world of [w] with [history] as the agent's memory and [s] as the
    state behind the model wrapper. *)
Definition remembering (history : list Msg) (w : world) (s : svc) : world :=
  {| self := with_memory history w.(self); service := s |}.

End Agent.

(** ** The Structured-Response Acquirer *)

Section Acquirer.

(** Prompt payloads and the state of the Generation Service. *)
Variables prompt oracle : Type.

(** The Generation Service: a prompt payload in, raw text out. *)
Variable generate_raw : prompt -> oracle -> string * oracle.

(** The service with the log of the calls made to it. *)
Record generation_service : Type := mkGenerationService {
  oracle_state : oracle;
  calls : list prompt
}.

(** One call of the Generation Service. *)
Definition generate_step (p : prompt) (sv : generation_service)
  : string * generation_service :=
  let (text, o') := generate_raw p sv.(oracle_state) in
  (text, {| oracle_state := o'; calls := sv.(calls) ++ [p] |}).

Definition generate (p : prompt) : SE generation_service string :=
  fun sv => let (text, sv') := generate_step p sv in (Ok text, sv').

(** The raw text of call number [k + 1] when the same payload is sent
    again and again from [sv], and the service after that call. *)
Fixpoint attempt (p : prompt) (k : nat) (sv : generation_service)
  : string * generation_service :=
  match k with
  | O => generate_step p sv
  | S k' => attempt p k' (snd (generate_step p sv))
  end.

(** Modelled from the spec: the acquisition protocol behind the call
    [self.model(prompt, parse_func=..., fault_handler=..., max_retries=...)];
    the model wrapper that runs it is not among the sources.  A call of
    the Generation Service, then [decode]; on success the record is
    returned; on a decode error a remaining retry is spent on the same
    payload, and with none left the fallback is applied to the most recent
    raw text. *)
Fixpoint acquire (p : prompt) (decode : decoder) (on_decode_failure : handler)
    (max_retries : nat) : SE generation_service value :=
  raw <- generate p ;;
  match decode raw with
  | Some record => ret record
  | None =>
      match max_retries with
      | O => ret (on_decode_failure raw)
      | S remaining => acquire p decode on_decode_failure remaining
      end
  end.

(** The two exits of the protocol: a record that [decode] accepted on some
    attempt after rejecting all earlier ones, or the fallback on the
    last raw text after every attempt was rejected. *)
Definition exits_by_decode_or_fallback (p : prompt) (decode : decoder)
    (on_decode_failure : handler) (max_retries : nat) (sv : generation_service)
  : Prop :=
  (exists k record,
      k <= max_retries /\
      (forall j, j < k -> decode (fst (attempt p j sv)) = None) /\
      decode (fst (attempt p k sv)) = Some record /\
      acquire p decode on_decode_failure max_retries sv
      = (Ok record, snd (attempt p k sv)))
  \/
  ((forall j, j <= max_retries -> decode (fst (attempt p j sv)) = None) /\
   acquire p decode on_decode_failure max_retries sv
   = (Ok (on_decode_failure (fst (attempt p max_retries sv))),
      snd (attempt p max_retries sv))).

End Acquirer.

(** ** A concrete agent

    One instance of everything the agent takes from outside, to run the
    definitions on. *)

Module Example.

(** [Msg.__init__(self, name, content, ...)]: the instance is bound to
    [self], the two positional arguments to [name] and [content]. *)
Definition params : list string := ["self"; "name"; "content"].

(** A prompt payload: the system prompt and the history it was joined
    from. *)
Definition prompt : Type := (option string * list Msg)%type.

Definition join (e : PromptEngine unit) (sys : option string)
    (history : list Msg) : prompt := (sys, history).

(** A Generation Service that answers from a script, one text per call,
    and with the empty text once the script is over. *)
Definition scripted (p : prompt) (script : list string)
  : string * list string :=
  match script with
  | [] => ("", [])
  | t :: rest => (t, rest)
  end.

Definition world0 : Type :=
  world unit (generation_service prompt (list string)).

(** A base class that keeps the name, the system prompt and the model
    object it is given and starts with an empty memory; it has no models
    to look up by name and raises when it is given no model object. *)
Definition base_init (name : string) (config : option value)
    (sys_prompt : option string) (model : option (unit + string))
    (use_memory : bool) (memory_config : option value)
  : result (AgentBase unit) :=
  match model with
  | Some (inl m) =>
      Ok {| name := name; sys_prompt := sys_prompt; model := m;
            memory := [] |}
  | Some (inr _) | None => Raise (KeyError "model")
  end.

(** A prompt engine that keeps the model and the layout it is built with,
    and takes the layout [STRING] when it is given none. *)
Definition engine_init (m : unit) (prompt_type : option PromptType)
  : result (PromptEngine unit) :=
  Ok {| engine_model := m;
        engine_prompt_type :=
          Some (match prompt_type with Some t => t | None => STRING end) |}.


(** A model wrapper that runs the acquirer when the parse function, the
    fault handler and a budget that is not negative are configured, and
    raises otherwise. *)
Definition model_call (m : unit) (p : prompt) (d : option decoder)
    (f : option handler) (n : option Z)
  : SE (generation_service prompt (list string)) value :=
  match d, f, n with
  | Some decode, Some fallback, Some budget =>
      if (0 <=? budget)%Z
      then acquire scripted p decode fallback (Z.to_nat budget)
      else raise (TypeError "negative retry budget")
  | _, _, _ =>
      raise (TypeError "parse function, fault handler or budget missing")
  end.

(** A parse function that reads four texts and rejects every other one. *)
Definition loads : decoder :=
  fun t =>
    if String.eqb t "{speak: hi, mood: happy}" then
      Some (VDict [(VStr "speak", VStr "hi"); (VStr "mood", VStr "happy")])
    else if String.eqb t "{speak: hi, name: Bob}" then
      Some (VDict [(VStr "speak", VStr "hi"); (VStr "name", VStr "Bob")])
    else if String.eqb t "{speak: 42}" then
      Some (VDict [(VStr "speak", VInt 42)])
    else if String.eqb t "42" then Some (VInt 42)
    else None.

(** A parse function that rejects every text. *)
Definition reject : decoder := fun _ => None.

Definition construct := construct base_init engine_init loads.
Definition build := build params.
Definition reply := reply params join model_call.

(** The arguments of [DictDialogAgent("agent", model=m)] for a model
    object [m]. *)
Definition only_name : init_args unit :=
  {| arg_name := Some "agent"; arg_config := None; arg_sys_prompt := None;
     arg_model := Some (Some (inl tt)); arg_use_memory := None;
     arg_memory_config := None;
     arg_parse_func := None; arg_fault_handler := None;
     arg_max_retries := None; arg_prompt_type := None |}.

(** The arguments of [DictDialogAgent()]. *)
Definition no_arguments : init_args unit :=
  {| arg_name := None; arg_config := None; arg_sys_prompt := None;
     arg_model := None; arg_use_memory := None; arg_memory_config := None;
     arg_parse_func := None; arg_fault_handler := None;
     arg_max_retries := None; arg_prompt_type := None |}.

(** The arguments of [DictDialogAgent("agent", model=m,
    max_retries=budget)]. *)
Definition with_budget (budget : Z) : init_args unit :=
  {| arg_name := Some "agent"; arg_config := None; arg_sys_prompt := None;
     arg_model := Some (Some (inl tt)); arg_use_memory := None;
     arg_memory_config := None;
     arg_parse_func := None; arg_fault_handler := None;
     arg_max_retries := Some (Some budget); arg_prompt_type := None |}.

(** The agent [DictDialogAgent("agent", model=m)] builds on this base
    class. *)
Definition agent : DictDialogAgent unit :=
  {| base := {| name := "agent"; sys_prompt := None; model := tt;
                memory := [] |};
     parse_func := Some loads;
     fault_handler := Some default_fault_handler;
     max_retries := Some default_max_retries;
     engine := {| engine_model := tt; engine_prompt_type := Some LIST |} |}.

(** The agent in front of a service that will answer with [script]. *)
Definition facing (script : list string) : world0 :=
  {| self := agent;
     service := {| oracle_state := script; calls := [] |} |}.

(** A message from the caller. *)
Definition question : Msg :=
  {| msg_name := "user"; msg_content := VStr "hello?"; msg_fields := [] |}.

(** The payload the prompt engine joins for the agent with an empty
    memory. *)
Definition payload : prompt := (None, []).

(** A service about to answer [script], nothing sent to it yet. *)
Definition fresh (script : list string)
  : generation_service prompt (list string) :=
  {| oracle_state := script; calls := [] |}.

(** The record of the specification's example. *)
Definition hi_happy : list (value * value) :=
  [(VStr "speak", VStr "hi"); (VStr "mood", VStr "happy")].

(** The Message the agent builds from [hi_happy]. *)
Definition hi_message : Msg :=
  {| msg_name := "agent"; msg_content := VStr "hi";
     msg_fields := [("speak", VStr "hi"); ("mood", VStr "happy")] |}.

(** The Message the agent builds from the mapping of ["speak"] to [42]. *)
Definition number_message : Msg :=
  {| msg_name := "agent"; msg_content := VInt 42;
     msg_fields := [("speak", VInt 42)] |}.

(** A mapping with the display-text key and the key [7]. *)
Definition hi_seven : list (value * value) :=
  [(VStr "speak", VStr "hi"); (VInt 7, VInt 1)].

End Example.

(** ** Further concrete agents *)

Module Cases.

Import Example.

(** The agent [DictDialogAgent("agent", model=m, max_retries=-1)]: the model
    wrapper of the example raises on its budget. *)
Definition negative_agent : DictDialogAgent unit :=
  {| base := {| name := "agent"; sys_prompt := None; model := tt;
                memory := [] |};
     parse_func := Some loads;
     fault_handler := Some default_fault_handler;
     max_retries := Some (-1)%Z;
     engine := {| engine_model := tt; engine_prompt_type := Some LIST |} |}.

(** A parse function that reads every text as a mapping keyed by the
    tuple [(1, 2)]. *)
Definition pair_keyed : decoder :=
  fun _ => Some (VDict [(VTuple [VInt 1; VInt 2], VStr "x")]).

(** The agent [DictDialogAgent("agent", parse_func=pair_keyed)]. *)
Definition pair_agent : DictDialogAgent unit :=
  {| base := {| name := "agent"; sys_prompt := None; model := tt;
                memory := [] |};
     parse_func := Some pair_keyed;
     fault_handler := Some default_fault_handler;
     max_retries := Some default_max_retries;
     engine := {| engine_model := tt; engine_prompt_type := Some LIST |} |}.

(** An agent in front of a service that will answer with [script]. *)
Definition put (a : DictDialogAgent unit) (script : list string) : world0 :=
  {| self := a; service := fresh script |}.

(** The arguments of [DictDialogAgent("agent", model=m,
    parse_func=None)]. *)
Definition without_parser : init_args unit :=
  {| arg_name := Some "agent"; arg_config := None; arg_sys_prompt := None;
     arg_model := Some (Some (inl tt)); arg_use_memory := None;
     arg_memory_config := None;
     arg_parse_func := Some None; arg_fault_handler := None;
     arg_max_retries := None; arg_prompt_type := None |}.

(** The agent [DictDialogAgent("agent", model=m, parse_func=None)] builds
    on the base class of the example. *)
Definition parserless_agent : DictDialogAgent unit :=
  {| base := {| name := "agent"; sys_prompt := None; model := tt;
                memory := [] |};
     parse_func := None;
     fault_handler := Some default_fault_handler;
     max_retries := Some default_max_retries;
     engine := {| engine_model := tt; engine_prompt_type := Some LIST |} |}.

(** The Message the agent builds from the record [42]. *)
Definition plain_number_message : Msg :=
  {| msg_name := "agent"; msg_content := VInt 42; msg_fields := [] |}.

(** The Message the agent builds from the fallback on the text [last]. *)
Definition last_message : Msg :=
  {| msg_name := "agent"; msg_content := VStr "last";
     msg_fields := [("speak", VStr "last")] |}.

(** A second message from the caller. *)
Definition follow_up : Msg :=
  {| msg_name := "user"; msg_content := VStr "and then?"; msg_fields := [] |}.

End Cases.

(** * Properties of the acquisition protocol *)

Section AcquirerProperties.

Variables prompt oracle : Type.
Variable generate_raw : prompt -> oracle -> string * oracle.

Local Notation step := (generate_step generate_raw).
Local Notation text p k sv := (fst (attempt generate_raw p k sv)).
Local Notation after p k sv := (snd (attempt generate_raw p k sv)).
Local Notation acquire := (acquire generate_raw).

(** One round of the protocol, read off its definition. *)
Lemma acquire_round (p : prompt) (decode : decoder) (fallback : handler)
    (n : nat) (sv : generation_service prompt oracle) :
  acquire p decode fallback n sv
  = match decode (fst (step p sv)) with
    | Some record => (Ok record, snd (step p sv))
    | None =>
        match n with
        | O => (Ok (fallback (fst (step p sv))), snd (step p sv))
        | S remaining => acquire p decode fallback remaining (snd (step p sv))
        end
    end.
Proof.
  destruct n; simpl; unfold bind, generate;
    destruct (step p sv) as [raw sv']; simpl;
    destruct (decode raw); reflexivity.
Qed.

(** Every call appends the same payload to the log. *)
Lemma calls_after_attempt (p : prompt) (k : nat) :
  forall sv : generation_service prompt oracle,
    calls (after p k sv) = calls sv ++ repeat p (S k).
Proof.
  induction k as [|k IH]; intros sv.
  - simpl. unfold generate_step.
    destruct (generate_raw p (oracle_state sv)); reflexivity.
  - change (after p (S k) sv) with (after p k (snd (step p sv))).
    rewrite IH. unfold generate_step.
    destruct (generate_raw p (oracle_state sv)); simpl.
    rewrite <- app_assoc. reflexivity.
Qed.

(** The protocol always leaves through one of its two exits. *)
Lemma acquire_exits (p : prompt) (decode : decoder) (fallback : handler)
    (n : nat) :
  forall sv, exits_by_decode_or_fallback generate_raw p decode fallback n sv.
Proof.
  induction n as [|n IH]; intros sv; unfold exits_by_decode_or_fallback;
    rewrite acquire_round;
    destruct (decode (fst (step p sv))) as [record|] eqn:First.
  - left. exists 0, record. repeat split; auto; intros j Hj; lia.
  - right. split; [|reflexivity].
    intros j Hj. assert (j = 0) by lia. subst j. exact First.
  - left. exists 0, record. repeat split; auto; try lia; intros j Hj; lia.
  - destruct (IH (snd (step p sv))) as
      [(k & record & Hk & Hbefore & Hat & Hrun) | (Hall & Hrun)].
    + left. exists (S k), record. repeat split; auto; try lia.
      intros [|j] Hj; [exact First|]. apply Hbefore. lia.
    + right. split; [|exact Hrun].
      intros [|j] Hj; [exact First|]. apply Hall. lia.
Qed.

(** The protocol never raises: whatever [decode] does with the raw texts,
    a record comes back. *)
Lemma acquire_returns (p : prompt) (decode : decoder) (fallback : handler)
    (n : nat) (sv : generation_service prompt oracle) :
  exists record sv', acquire p decode fallback n sv = (Ok record, sv').
Proof.
  destruct (acquire_exits p decode fallback n sv) as
    [(k & record & _ & _ & _ & Hrun) | (_ & Hrun)]; eauto.
Qed.

(** C1.  When [decode] rejects the raw text of every attempt, [acquire]
    with retry budget [n] issues exactly [n + 1] calls of the Generation
    Service, all with the same payload, and returns the fallback applied
    to the raw text of the last call; with budget [0] that is one call
    and the fallback on its text. *)
Theorem acquire_exhausts_budget (p : prompt) (decode : decoder)
    (fallback : handler) (n : nat) (sv : generation_service prompt oracle) :
  (forall k, k <= n -> decode (text p k sv) = None) ->
  (acquire p decode fallback n sv
   = (Ok (fallback (text p n sv)), after p n sv)
   /\ calls (after p n sv) = calls sv ++ repeat p (n + 1))
  /\
  (acquire p decode fallback 0 sv
   = (Ok (fallback (fst (step p sv))), snd (step p sv))
   /\ calls (snd (step p sv)) = calls sv ++ [p]).
Proof.
  intros Hrej. split; split.
  - destruct (acquire_exits p decode fallback n sv) as
      [(k & record & Hk & _ & Hat & _) | (_ & Hrun)]; [|exact Hrun].
    rewrite (Hrej k Hk) in Hat. discriminate.
  - rewrite calls_after_attempt. f_equal. f_equal. lia.
  - rewrite acquire_round.
    change (fst (step p sv)) with (text p 0 sv).
    rewrite (Hrej 0 (Nat.le_0_l n)). reflexivity.
  - exact (calls_after_attempt p 0 sv).
Qed.

(** C2.  When [decode] accepts the raw text [t] of the first call,
    [acquire] returns exactly [decode t] whatever the retry budget, after
    exactly one call of the Generation Service; and a run of the protocol
    ends either with a record [decode] accepted or with the fallback
    after every attempt was rejected. *)
Theorem acquire_first_success (p : prompt) (decode : decoder)
    (fallback : handler) (n : nat) (sv : generation_service prompt oracle)
    (record : value) :
  decode (fst (step p sv)) = Some record ->
  acquire p decode fallback n sv = (Ok record, snd (step p sv))
  /\ calls (snd (step p sv)) = calls sv ++ [p]
  /\ exits_by_decode_or_fallback generate_raw p decode fallback n sv.
Proof.
  intros Hacc. repeat split.
  - rewrite acquire_round, Hacc. reflexivity.
  - exact (calls_after_attempt p 0 sv).
  - apply acquire_exits.
Qed.

End AcquirerProperties.

(** * Properties of the agent *)

Section AgentProperties.

Variable msg_params : list string.
Variables prompt model_obj svc : Type.
Variable agent_base_init :
  string -> option value -> option string -> option (model_obj + string) ->
  bool -> option value -> result (AgentBase model_obj).
Variable prompt_engine_init :
  model_obj -> option PromptType -> result (PromptEngine model_obj).
Variable json_loads : decoder.
Variable engine_join :
  PromptEngine model_obj -> option string -> list Msg -> prompt.
Variable model_call :
  model_obj -> prompt -> option decoder -> option handler -> option Z ->
  SE svc value.

Local Notation Msg_call := (Msg_call msg_params).
Local Notation build := (build msg_params).
Local Notation collides := (collides msg_params).
Local Notation spreadable := (spreadable msg_params).
Local Notation reply := (reply msg_params engine_join model_call).
Local Notation init := (init agent_base_init prompt_engine_init).
Local Notation construct :=
  (construct agent_base_init prompt_engine_init json_loads).
Local Notation acquired := (acquired engine_join model_call).

(** *** Dicts and keyword spreading *)

Lemma dict_contains_get (key : string) (d : list (value * value)) :
  dict_contains key d = true <-> exists v, dict_get key d = Some v.
Proof.
  unfold dict_contains.
  induction d as [|[k v] rest IH]; simpl.
  - split; [discriminate | intros [v Hv]; discriminate].
  - destruct (key_is key k); simpl; [|exact IH].
    split; eauto.
Qed.

Lemma dict_get_In (key : string) (d : list (value * value)) (v : value) :
  dict_get key d = Some v -> In (VStr key, v) d.
Proof.
  induction d as [|[k x] rest IH]; simpl; [discriminate|].
  destruct k; simpl; auto.
  destruct (String.eqb_spec s key) as [->|_]; auto.
  intros [= ->]. now left.
Qed.

Lemma keywords_entries (d : list (value * value)) :
  forall kw, keywords d = Ok kw -> as_entries kw = d.
Proof.
  induction d as [|[k v] rest IH]; simpl; intros kw.
  - intros [= <-]. reflexivity.
  - destruct k; try discriminate.
    destruct (keywords rest) as [kw'|e]; [|discriminate].
    intros [= <-]. simpl. now rewrite (IH kw' eq_refl).
Qed.

Lemma keywords_string_keyed (d : list (value * value)) :
  string_keyed d = true -> exists kw, keywords d = Ok kw.
Proof.
  unfold string_keyed.
  induction d as [|[k v] rest IH]; simpl; [eauto|].
  intros H. apply andb_prop in H as [Hk Hrest].
  destruct k; try discriminate.
  destruct (IH Hrest) as [kw ->]. eauto.
Qed.

Lemma keywords_collides (d : list (value * value)) :
  forall kw,
    keywords d = Ok kw ->
    existsb (fun kv => existsb (String.eqb (fst kv)) msg_params) kw
    = collides d.
Proof.
  unfold collides.
  induction d as [|[k v] rest IH]; simpl; intros kw.
  - intros [= <-]. reflexivity.
  - destruct k; try discriminate.
    destruct (keywords rest) as [kw'|e]; [|discriminate].
    intros [= <-]. simpl. now rewrite (IH kw' eq_refl).
Qed.

(** What [Msg] holds when the call returns. *)
Lemma Msg_call_inv (sender : string) (content : value)
    (d : list (value * value)) (m : Msg) :
  Msg_call sender content d = Ok m ->
  msg_name m = sender /\ msg_content m = content
  /\ as_entries (msg_fields m) = d.
Proof.
  unfold Msg_call.
  destruct (keywords d) as [kw|e] eqn:Hkw; [|discriminate].
  destruct (existsb _ kw); [discriminate|].
  intros [= <-]. simpl. auto using keywords_entries.
Qed.

(** The call returns for a string-keyed mapping without a colliding key. *)
Lemma Msg_call_returns (sender : string) (content : value)
    (d : list (value * value)) :
  string_keyed d = true -> collides d = false ->
  succeeds (Msg_call sender content d) = true.
Proof.
  intros Hstr Hfree. unfold Msg_call.
  destruct (keywords_string_keyed d Hstr) as [kw Hkw].
  rewrite Hkw, (keywords_collides d Hkw), Hfree. reflexivity.
Qed.


(** *** The message builder *)

Lemma build_plain (sender : string) (response : value) :
  has_speak response = false ->
  build sender response
  = Ok {| msg_name := sender; msg_content := response; msg_fields := [] |}.
Proof.
  unfold build, has_speak. intros ->. reflexivity.
Qed.

Lemma build_speak (sender : string) (d : list (value * value)) :
  dict_contains "speak" d = true ->
  exists v, dict_get "speak" d = Some v
            /\ build sender (VDict d) = Msg_call sender v d.
Proof.
  intros Hin. destruct (proj1 (dict_contains_get "speak" d) Hin) as [v Hv].
  exists v. split; [exact Hv|].
  unfold build. simpl. rewrite Hin, Hv. reflexivity.
Qed.

Lemma has_speak_dict (response : value) :
  has_speak response = true ->
  exists d, response = VDict d /\ dict_contains "speak" d = true.
Proof.
  unfold has_speak. destruct response; simpl; try discriminate. eauto.
Qed.

Lemma no_speak_get (response : value) :
  has_speak response = false ->
  dict_get "speak" (entries_of response) = None.
Proof.
  unfold has_speak. intros H.
  destruct (dict_get "speak" (entries_of response)) as [v|] eqn:Hget;
    [|reflexivity].
  assert (Hin : dict_contains "speak" (entries_of response) = true)
    by (apply dict_contains_get; eauto).
  destruct response; simpl in *; try discriminate; congruence.
Qed.

(** The display text of a built Message: the value under ["speak"] when
    the record is a mapping that has one, the record itself otherwise. *)
Lemma build_content (sender : string) (response : value) (m : Msg) :
  build sender response = Ok m ->
  msg_name m = sender
  /\ msg_content m
     = match dict_get "speak" (entries_of response) with
       | Some v => v
       | None => response
       end.
Proof.
  destruct (has_speak response) eqn:Hsp.
  - destruct (has_speak_dict response Hsp) as (d & -> & Hin).
    destruct (build_speak sender d Hin) as (v & Hv & ->).
    intros Hcall. apply Msg_call_inv in Hcall as (Hn & Hc & _).
    simpl. rewrite Hv. auto.
  - rewrite (build_plain sender response Hsp), (no_speak_get response Hsp).
    intros [= <-]. auto.
Qed.


(** *** The reply cycle *)

Local Notation history_of w := (memory (base (self w))).

(** Step (1) of the cycle leaves the caller's input, if there is one, at
    the end of the memory. *)
Lemma record_input (x : option Msg) (w : world model_obj svc) :
  match x with
  | Some input => memory_add input
  | None => ret tt
  end w
  = (Ok tt, remembering (history_of w ++ inputs x) w (service w)).
Proof.
  destruct x as [input|]; [reflexivity|].
  destruct w as [[[n sp mo mem] pf fh mr en] sv].
  unfold ret, remembering, with_memory. simpl. rewrite app_nil_r.
  reflexivity.
Qed.

(** The whole cycle in one equation: where it can stop, with what, and
    the memory it leaves. *)
Lemma reply_run (x : option Msg) (w : world model_obj svc) :
  reply x w
  = let history := history_of w ++ inputs x in
    match acquired w history with
    | (Ok response, s') =>
        match json_dumps response with
        | Ok _ =>
            match build (name (base (self w))) response with
            | Ok msg => (Ok msg, remembering (history ++ [msg]) w s')
            | Raise e => (Raise e, remembering history w s')
            end
        | Raise e => (Raise e, remembering history w s')
        end
    | (Raise e, s') => (Raise e, remembering history w s')
    end.
Proof.
  unfold reply. unfold bind at 1. rewrite record_input.
  unfold bind, get_self, get_memory, on_service, lift_result, memory_add,
    ret, acquired, remembering. simpl.
  destruct (model_call _ _ _ _ _ _) as [[response|e] s']; simpl;
    [|reflexivity].
  destruct (json_dumps response); simpl; [|reflexivity].
  destruct (build _ response); reflexivity.
Qed.

(** A reply that returns went through every step. *)
Lemma reply_returned (x : option Msg) (w w' : world model_obj svc)
    (m : Msg) :
  reply x w = (Ok m, w') ->
  exists response s',
    acquired w (history_of w ++ inputs x) = (Ok response, s')
    /\ json_serializable response = true
    /\ build (name (base (self w))) response = Ok m
    /\ w' = remembering ((history_of w ++ inputs x) ++ [m]) w s'.
Proof.
  rewrite reply_run. cbv zeta.
  destruct (acquired w _) as [[response|e] s']; [|discriminate].
  unfold json_dumps.
  destruct (json_serializable response) eqn:Hjson; [|discriminate].
  destruct (build _ response) as [msg|e] eqn:Hbuild; [|discriminate].
  intros [= <- <-]. exists response, s'. repeat split; auto.
Qed.


(** The builder returns on every record it does not spread and on every
    string-keyed mapping free of a colliding key. *)
Lemma build_spreadable (sender : string) (response : value) :
  spreadable response = true -> succeeds (build sender response) = true.
Proof.
  unfold spreadable. destruct (has_speak response) eqn:Hsp; simpl.
  - intros H. apply andb_prop in H as [Hstr Hfree].
    apply negb_true_iff in Hfree.
    destruct (has_speak_dict response Hsp) as (d & -> & Hin).
    destruct (build_speak sender d Hin) as (v & _ & ->).
    now apply Msg_call_returns.
  - intros _. now rewrite build_plain.
Qed.

(** *** The claims on the message builder *)

(** C3.  For a record that is a mapping containing the key ["speak"], the
    Message the builder returns has the value of that key as its display
    text and holds every entry of the record, the ["speak"] entry
    included, as its additional fields; and the builder does return one
    for every such mapping whose keys are strings that name no parameter
    bound positionally. *)
Theorem build_speak_mapping (sender : string) (d : list (value * value)) :
  dict_contains "speak" d = true ->
  (forall m,
      build sender (VDict d) = Ok m ->
      dict_get "speak" d = Some (msg_content m)
      /\ as_entries (msg_fields m) = d
      /\ In ("speak", msg_content m) (msg_fields m))
  /\ (string_keyed d = true -> collides d = false ->
      succeeds (build sender (VDict d)) = true).
Proof.
  intros Hin. destruct (build_speak sender d Hin) as (v & Hv & Hb).
  split.
  - intros m Hm. rewrite Hb in Hm.
    apply Msg_call_inv in Hm as (_ & Hc & Hf).
    rewrite Hc. repeat split; auto.
    apply dict_get_In in Hv. rewrite <- Hf in Hv.
    apply in_map_iff in Hv as ([k x] & Heq & Hkx).
    simpl in Heq. injection Heq as -> ->. exact Hkx.
  - intros Hstr Hfree. rewrite Hb. now apply Msg_call_returns.
Qed.

(** C4, as the code has it.  For a record that is not a mapping containing
    the key ["speak"], the builder returns a Message whose display text is
    the record itself, handed over as it is, and which has no additional
    fields. *)
Theorem build_other_record (sender : string) (response : value) :
  has_speak response = false ->
  build sender response
  = Ok {| msg_name := sender; msg_content := response; msg_fields := [] |}.
Proof.
  exact (build_plain sender response).
Qed.

(** C5, as the code has it.  The builder returns a Message for every
    record that is not a mapping containing ["speak"], and for every
    mapping containing ["speak"] whose keys are all strings and name no
    parameter of the Message constructor bound positionally. *)
Theorem build_returns (sender : string) (response : value) :
  spreadable response = true -> succeeds (build sender response) = true.
Proof.
  exact (build_spreadable sender response).
Qed.

(** C6, as the code has it.  A Message returned by a reply cycle has a
    display text: the value under ["speak"] of the acquired record when
    the record is a mapping that has one, the record itself otherwise.
    It is a string exactly when the acquired record is a string or a
    mapping whose ["speak"] value is a string. *)
Theorem reply_display_text (x : option Msg) (w w' : world model_obj svc)
    (m : Msg) :
  reply x w = (Ok m, w') ->
  exists response s',
    acquired w (history_of w ++ inputs x) = (Ok response, s')
    /\ msg_content m
       = match dict_get "speak" (entries_of response) with
         | Some v => v
         | None => response
         end
    /\ (display_text_is_string m = true
        <-> is_str response = true
            \/ exists s,
                dict_get "speak" (entries_of response) = Some (VStr s)).
Proof.
  intros Hrun.
  apply reply_returned in Hrun as (response & s' & Hacq & _ & Hb & _).
  exists response, s'. apply build_content in Hb as [_ Hc].
  repeat split; auto; unfold display_text_is_string; rewrite Hc.
  - destruct (dict_get "speak" (entries_of response)) as [v|]; auto.
    destruct v; simpl; try discriminate. eauto.
  - intros [Hstr | [s Hs]].
    + destruct response; simpl in *; try discriminate. reflexivity.
    + rewrite Hs. reflexivity.
Qed.

(** *** The claims on construction *)

(** C7, as the code has it.  Construction does not look at the retry
    budget: a negative budget is not rejected and nothing is raised on
    its account.  The budget is stored as given, and whether construction
    returns, and what it raises when it does not, is the same for every
    budget. *)
Theorem init_keeps_any_budget (name : string) (config : option value)
    (sys_prompt : option string) (model : option (model_obj + string))
    (use_memory : bool) (memory_config : option value)
    (parse_func : option decoder) (fault_handler : option handler)
    (budget other : option Z) (prompt_type : option PromptType) :
  (forall a,
      init name config sys_prompt model use_memory memory_config
           parse_func fault_handler budget prompt_type = Ok a ->
      max_retries a = budget)
  /\ succeeds (init name config sys_prompt model use_memory memory_config
                    parse_func fault_handler budget prompt_type)
     = succeeds (init name config sys_prompt model use_memory memory_config
                      parse_func fault_handler other prompt_type)
  /\ (forall e,
        init name config sys_prompt model use_memory memory_config
             parse_func fault_handler budget prompt_type = Raise e ->
        init name config sys_prompt model use_memory memory_config
             parse_func fault_handler other prompt_type = Raise e).
Proof.
  unfold init.
  destruct (agent_base_init _ _ _ _ _ _) as [b|e0].
  - destruct (prompt_engine_init _ _) as [en|e1]; repeat split.
    + intros a [= <-]. reflexivity.
    + discriminate.
    + discriminate.
    + auto.
  - repeat split; [discriminate | auto].
Qed.

(** C10, as the code has it.  [name] has to be given.  In a call that
    gives it and returns an agent, each of the system prompt, the parse
    function, the fault handler, the retry budget and the prompt type,
    when left out, has taken its default: the base class was initialised
    with no system prompt, the agent holds [json.loads],
    [lambda x: {"speak": x}] and [3], and its prompt engine was built with
    [PromptType.LIST].  The default fault handler is total and wraps the
    raw text under ["speak"]. *)
Theorem construct_defaults (args : init_args model_obj) (n : string)
    (a : DictDialogAgent model_obj) :
  arg_name args = Some n ->
  construct args = Ok a ->
  agent_base_init n
    (or_default (arg_config args) None)
    (or_default (arg_sys_prompt args) None)
    (or_default (arg_model args) None)
    (or_default (arg_use_memory args) true)
    (or_default (arg_memory_config args) None)
  = Ok (base a)
  /\ (arg_parse_func args = None -> parse_func a = Some json_loads)
  /\ (arg_fault_handler args = None ->
      fault_handler a = Some default_fault_handler)
  /\ (arg_max_retries args = None -> max_retries a = Some 3%Z)
  /\ (arg_prompt_type args = None ->
      prompt_engine_init (self_model (base a)) (Some LIST) = Ok (engine a))
  /\ (forall raw,
        default_fault_handler raw = VDict [(VStr "speak", VStr raw)]).
Proof.
  intros Hname. unfold construct, init. rewrite Hname.
  destruct (agent_base_init _ _ _ _ _ _) as [b|e0]; [|discriminate].
  destruct (prompt_engine_init _ _) as [en|e1] eqn:Hengine; [|discriminate].
  intros [= <-]. simpl.
  repeat split; try (intros ->; reflexivity).
  intros Hpt. rewrite Hpt in Hengine. exact Hengine.
Qed.

(** *** The claims on the reply cycle *)

(** C8.  A reply cycle that returns the Message [m] joined its prompt
    from the memory with the caller's input already appended, built [m]
    from the response to that prompt, and leaves the memory extended by
    the input and then [m]: it ends with [input; m] when the caller gave
    an input, and only [m] was appended when the caller gave none. *)
Theorem reply_history_order (x : option Msg) (w w' : world model_obj svc)
    (m : Msg) :
  reply x w = (Ok m, w') ->
  (exists response s',
      acquired w (history_of w ++ inputs x) = (Ok response, s')
      /\ build (name (base (self w))) response = Ok m)
  /\ history_of w' = history_of w ++ inputs x ++ [m]
  /\ (forall input, x = Some input ->
                    history_of w' = history_of w ++ [input; m])
  /\ (x = None -> history_of w' = history_of w ++ [m]).
Proof.
  intros Hrun.
  apply reply_returned in Hrun as (response & s' & Hacq & _ & Hb & ->).
  split; [eauto|]. simpl. rewrite <- app_assoc.
  repeat split; auto; intros; subst x; reflexivity.
Qed.

End AgentProperties.

(** * The reply cycle over the acquirer *)

Section AcquiringAgent.

Variable msg_params : list string.
Variables prompt model_obj oracle : Type.
Variable generate_raw : prompt -> oracle -> string * oracle.
Variable engine_join :
  PromptEngine model_obj -> option string -> list Msg -> prompt.
Variable model_call :
  model_obj -> prompt -> option decoder -> option handler -> option Z ->
  SE (generation_service prompt oracle) value.

Local Notation reply := (reply msg_params engine_join model_call).
Local Notation acquired := (acquired engine_join model_call).
Local Notation history_of w := (memory (base (self w))).

(** The reply cycle of an agent configured with a parse function, a
    fault handler and a budget that is not negative, whose
    model wrapper runs the acquisition protocol.  Whatever the
    Generation Service puts out, the acquisition hands a record to the
    reply cycle, through a successful decode or through the fallback, and
    no decode error reaches it; and the cycle returns a Message whenever
    that record can be logged as JSON and is one the builder accepts: not
    a mapping containing ["speak"], or such a mapping with string keys
    that name no parameter of the Message constructor bound
    positionally. *)
Theorem reply_resolves_decoding
    (w : world model_obj (generation_service prompt oracle))
    (decode : decoder) (fallback : handler) (n : nat) (x : option Msg) :
  parse_func (self w) = Some decode ->
  fault_handler (self w) = Some fallback ->
  max_retries (self w) = Some (Z.of_nat n) ->
  (forall p sv,
      model_call (model (base (self w))) p (Some decode) (Some fallback)
                 (Some (Z.of_nat n)) sv
      = acquire generate_raw p decode fallback n sv) ->
  exists record sv',
    acquired w (history_of w ++ inputs x) = (Ok record, sv')
    /\ exits_by_decode_or_fallback generate_raw
         (engine_join (engine (self w)) (sys_prompt (base (self w)))
                      (history_of w ++ inputs x))
         decode fallback n (service w)
    /\ (json_serializable record = true ->
        spreadable msg_params record = true ->
        exists m,
          reply x w
          = (Ok m,
             remembering ((history_of w ++ inputs x) ++ [m]) w sv')).
Proof.
  intros Hd Hf Hn Hmodel.
  set (history := history_of w ++ inputs x).
  set (p := engine_join (engine (self w)) (sys_prompt (base (self w)))
                        history).
  destruct (acquire_returns generate_raw p decode fallback n (service w))
    as (record & sv' & Hrun).
  assert (Hacq : acquired w history = (Ok record, sv')).
  { unfold acquired. cbv zeta. rewrite Hd, Hf, Hn, Hmodel.
    exact Hrun. }
  exists record, sv'. split; [exact Hacq|]. split; [apply acquire_exits|].
  intros Hjson Hspread.
  pose proof (build_spreadable msg_params (name (base (self w))) record
                               Hspread) as Hb.
  destruct (build msg_params (name (base (self w))) record) as [m|e] eqn:Hm;
    [|discriminate].
  exists m. rewrite reply_run. cbv zeta. fold history. rewrite Hacq.
  unfold json_dumps. rewrite Hjson, Hm. reflexivity.
Qed.

End AcquiringAgent.

(** * The properties on the concrete agent *)

Module Runs.

Import Example.

(** Budget [2] against a parse function that rejects everything: three
    calls, and the fallback on the third text. *)
Lemma acquire_exhausts_budget_run :
  acquire scripted payload reject default_fault_handler 2
          (fresh ["a"; "b"; "c"; "d"])
  = (Ok (VDict [(VStr "speak", VStr "c")]),
     {| oracle_state := ["d"]; calls := [payload; payload; payload] |}).
Proof.
  refine (proj1 (proj1
    (@acquire_exhausts_budget _ _ scripted payload reject
       default_fault_handler 2 (fresh ["a"; "b"; "c"; "d"]) _))).
  intros k _. reflexivity.
Defined.

(** The first text is accepted: one call, the decoded record, whatever
    the budget. *)
Lemma acquire_first_success_run :
  acquire scripted payload loads default_fault_handler 5
          (fresh ["42"; "b"; "c"])
  = (Ok (VInt 42), {| oracle_state := ["b"; "c"]; calls := [payload] |}).
Proof.
  refine (proj1
    (@acquire_first_success _ _ scripted payload loads
       default_fault_handler 5 (fresh ["42"; "b"; "c"]) (VInt 42) _)).
  reflexivity.
Defined.

(** The builder on the record of the specification's example. *)
Example build_hi_happy :
  build "agent" (VDict hi_happy)
  = Ok {| msg_name := "agent"; msg_content := VStr "hi";
          msg_fields := [("speak", VStr "hi"); ("mood", VStr "happy")] |}.
Proof. reflexivity. Qed.

Lemma build_speak_mapping_run :
  (forall m,
      build "agent" (VDict hi_happy) = Ok m ->
      dict_get "speak" hi_happy = Some (msg_content m)
      /\ as_entries (msg_fields m) = hi_happy
      /\ In ("speak", msg_content m) (msg_fields m))
  /\ succeeds (build "agent" (VDict hi_happy)) = true.
Proof.
  destruct (@build_speak_mapping params "agent" hi_happy eq_refl)
    as [Hshape Hreturns].
  split; [exact Hshape | exact (Hreturns eq_refl eq_refl)].
Defined.

(** The scalar string of the specification's example. *)
Lemma build_other_record_run :
  build "agent" (VStr "hello")
  = Ok {| msg_name := "agent"; msg_content := VStr "hello";
          msg_fields := [] |}.
Proof.
  exact (@build_other_record params "agent" (VStr "hello") eq_refl).
Defined.

(** A number is not a mapping, and it stays a number: the display text of
    the Message is not a string. *)
Lemma build_number_stays_number :
  has_speak (VInt 42) = false
  /\ build "agent" (VInt 42)
     = Ok {| msg_name := "agent"; msg_content := VInt 42;
             msg_fields := [] |}
  /\ display_text_is_string
       {| msg_name := "agent"; msg_content := VInt 42; msg_fields := [] |}
     = false.
Proof. repeat split. Qed.

Lemma build_returns_run : succeeds (build "agent" (VDict hi_happy)) = true.
Proof.
  exact (@build_returns params "agent" (VDict hi_happy) eq_refl).
Defined.

(** A mapping with ["speak"] and the key [7] is a dict Python can build,
    and the builder raises on it. *)
Lemma build_refuses_non_string_key :
  well_formed (VDict hi_seven) = true
  /\ build "agent" (VDict hi_seven)
     = Raise (TypeError "keywords must be strings")
  /\ succeeds (build "agent" (VDict hi_seven)) = false.
Proof. repeat split. Qed.

(** The same with a key that names the parameter of the sender name. *)
Example build_refuses_parameter_name :
  build "agent" (VDict [(VStr "speak", VStr "hi"); (VStr "name", VStr "Bob")])
  = Raise (TypeError "got multiple values for argument").
Proof. reflexivity. Qed.

(** A reply to a text that decodes to [hi_happy]: the display text is the
    string under ["speak"]. *)
Lemma reply_display_text_run :
  msg_content hi_message = VStr "hi"
  /\ display_text_is_string hi_message = true.
Proof.
  destruct (@reply_display_text params _ _ _ join model_call None
              (facing ["{speak: hi, mood: happy}"])
              (snd (reply None (facing ["{speak: hi, mood: happy}"])))
              hi_message eq_refl)
    as (response & s' & Hacq & Hcontent & Hstring).
  vm_compute in Hacq. injection Hacq as <- _.
  split; [exact Hcontent|].
  apply Hstring. right. exists "hi". reflexivity.
Defined.

(** A reply to a text that decodes to a mapping of ["speak"] to [42]: the
    cycle returns a Message whose display text is the number. *)
Lemma reply_display_text_number :
  fst (reply None (facing ["{speak: 42}"])) = Ok number_message
  /\ display_text_is_string number_message = false.
Proof. split; reflexivity. Qed.

(** [DictDialogAgent("agent", model=m, max_retries=-1)] returns an agent,
    and the agent holds [-1]. *)
Lemma construct_accepts_negative_budget :
  succeeds (construct (with_budget (-1))) = true
  /\ exists a,
      construct (with_budget (-1)) = Ok a /\ max_retries a = Some (-1)%Z.
Proof. split; [reflexivity|]. eexists. split; reflexivity. Qed.

(** [DictDialogAgent()] raises: [name] has no default. *)
Lemma construct_requires_name :
  construct no_arguments
  = Raise (TypeError "missing 1 required positional argument: 'name'").
Proof. reflexivity. Qed.

(** [DictDialogAgent("agent", model=m)] takes every default. *)
Lemma construct_defaults_run :
  construct only_name = Ok agent
  /\ parse_func agent = Some loads
  /\ fault_handler agent = Some default_fault_handler
  /\ max_retries agent = Some 3%Z
  /\ engine_init (self_model (base agent)) (Some LIST) = Ok (engine agent).
Proof.
  split; [reflexivity|].
  destruct (@construct_defaults _ base_init engine_init loads only_name
              "agent" agent eq_refl eq_refl)
    as (_ & Hparse & Hfault & Hbudget & Hlayout & _).
  auto.
Defined.

(** A reply to a question: the memory ends with the question and then the
    answer. *)
Lemma reply_history_order_run :
  memory (base (self (snd (reply (Some question)
                                 (facing ["{speak: hi, mood: happy}"])))))
  = [question; hi_message].
Proof.
  exact (proj1 (proj2 (proj2
    (@reply_history_order params _ _ _ join model_call (Some question)
       (facing ["{speak: hi, mood: happy}"])
       (snd (reply (Some question) (facing ["{speak: hi, mood: happy}"])))
       hi_message eq_refl))) question eq_refl).
Defined.

(** Four texts the parse function rejects, against the default budget of
    three retries: the fallback record comes back and the cycle returns a
    Message. *)
Lemma reply_resolves_decoding_run :
  exists m,
    fst (reply None (facing ["oops"; "oops"; "oops"; "last"; "unused"]))
    = Ok m.
Proof.
  destruct (@reply_resolves_decoding params _ _ _ scripted join model_call
              (facing ["oops"; "oops"; "oops"; "last"; "unused"])
              loads default_fault_handler 3 None
              eq_refl eq_refl eq_refl (fun p sv => eq_refl))
    as (record & sv' & Hacq & _ & Hreply).
  vm_compute in Hacq. injection Hacq as <- <-.
  destruct (Hreply eq_refl eq_refl) as [m Hm].
  exists m. unfold reply. rewrite Hm. reflexivity.
Defined.

(** C9, at the failing input.  The model puts out a text that decodes to
    the mapping with the keys ["speak"] and ["name"], a record the
    docstring of [reply] allows for: the decode succeeds, and the cycle
    still raises a [TypeError] to its caller, from the call of [Msg] at
    line 147, instead of returning a Message. *)
Lemma reply_raises_on_parameter_name :
  fst (reply None (facing ["{speak: hi, name: Bob}"]))
  = Raise (TypeError "got multiple values for argument").
Proof. reflexivity. Qed.

End Runs.

(** * Further behaviour of the agent *)

Section AgentBehaviour.

Variable msg_params : list string.
Variables prompt model_obj svc : Type.
Variable agent_base_init :
  string -> option value -> option string -> option (model_obj + string) ->
  bool -> option value -> result (AgentBase model_obj).
Variable prompt_engine_init :
  model_obj -> option PromptType -> result (PromptEngine model_obj).
Variable json_loads : decoder.
Variable engine_join :
  PromptEngine model_obj -> option string -> list Msg -> prompt.
Variable model_call :
  model_obj -> prompt -> option decoder -> option handler -> option Z ->
  SE svc value.

Local Notation Msg_call := (Msg_call msg_params).
Local Notation build := (build msg_params).
Local Notation collides := (collides msg_params).
Local Notation spreadable := (spreadable msg_params).
Local Notation reply := (reply msg_params engine_join model_call).
Local Notation construct :=
  (construct agent_base_init prompt_engine_init json_loads).
Local Notation acquired := (acquired engine_join model_call).
Local Notation history_of w := (memory (base (self w))).

(** *** Keyword spreading, the failing side *)

Lemma keywords_not_string_keyed (d : list (value * value)) :
  string_keyed d = false ->
  keywords d = Raise (TypeError "keywords must be strings").
Proof.
  unfold string_keyed.
  induction d as [|[k v] rest IH]; simpl; [discriminate|].
  destruct k; simpl; auto.
  intros Hrest. rewrite (IH Hrest). reflexivity.
Qed.

Lemma Msg_call_collides (sender : string) (content : value)
    (d : list (value * value)) :
  string_keyed d = true -> collides d = true ->
  Msg_call sender content d
  = Raise (TypeError "got multiple values for argument").
Proof.
  intros Hstr Hcol. unfold Msg_call.
  destruct (keywords_string_keyed d Hstr) as [kw Hkw].
  rewrite Hkw, (keywords_collides msg_params d Hkw), Hcol. reflexivity.
Qed.

(** The builder raises only on a mapping with ["speak"], and then with a
    [TypeError]: for a key that is not a string, or else for a key that
    names a parameter bound positionally. *)
Theorem build_raises_only (sender : string) (response : value) (e : exn) :
  build sender response = Raise e ->
  has_speak response = true
  /\ ((string_keyed (entries_of response) = false
       /\ e = TypeError "keywords must be strings")
      \/ (string_keyed (entries_of response) = true
          /\ collides (entries_of response) = true
          /\ e = TypeError "got multiple values for argument")).
Proof.
  destruct (has_speak response) eqn:Hsp.
  - destruct (has_speak_dict response Hsp) as (d & -> & Hin).
    destruct (build_speak msg_params sender d Hin) as (v & _ & ->).
    simpl. intros Hcall. split; [reflexivity|].
    destruct (string_keyed d) eqn:Hstr.
    + right. destruct (collides d) eqn:Hcol.
      * rewrite (Msg_call_collides sender v d Hstr Hcol) in Hcall.
        injection Hcall as <-. auto.
      * pose proof (Msg_call_returns msg_params sender v d Hstr Hcol) as Hok.
        rewrite Hcall in Hok. discriminate.
    + left. unfold Msg_call in Hcall.
      rewrite (keywords_not_string_keyed d Hstr) in Hcall.
      injection Hcall as <-. auto.
  - rewrite (build_plain msg_params sender response Hsp). discriminate.
Qed.

(** The builder returns exactly on the records it does not spread and on
    the string-keyed mappings free of a key that names a parameter bound
    by position, the one of the instance included. *)
Theorem build_succeeds_exactly (sender : string) (response : value) :
  succeeds (build sender response) = spreadable response.
Proof.
  destruct (spreadable response) eqn:Hspread.
  - now apply build_spreadable.
  - unfold spreadable in Hspread.
    apply orb_false_iff in Hspread as [Hsp Hkeys].
    apply negb_false_iff in Hsp.
    destruct (has_speak_dict response Hsp) as (d & -> & Hin).
    destruct (build_speak msg_params sender d Hin) as (v & _ & ->).
    simpl in Hkeys. destruct (string_keyed d) eqn:Hstr; simpl in Hkeys.
    + apply negb_false_iff in Hkeys.
      now rewrite (Msg_call_collides sender v d Hstr Hkeys).
    + unfold Msg_call. now rewrite (keywords_not_string_keyed d Hstr).
Qed.

(** *** The reply cycle, the failing side *)

(** An exception of the model wrapper reaches the caller of [reply] as it
    is; the caller's input is in the memory by then, and the service is
    left as the wrapper left it. *)
Theorem reply_propagates_model_error (x : option Msg)
    (w : world model_obj svc) (e : exn) (s' : svc) :
  acquired w (history_of w ++ inputs x) = (Raise e, s') ->
  reply x w = (Raise e, remembering (history_of w ++ inputs x) w s').
Proof.
  intros Hacq. rewrite reply_run. cbv zeta. rewrite Hacq. reflexivity.
Qed.

(** A response [json.dumps] refuses makes [reply] raise at the debug
    logging of line 142, before any Message is built, whatever the builder
    would do with the response. *)
Theorem reply_raises_on_unloggable_response (x : option Msg)
    (w : world model_obj svc) (response : value) (s' : svc) :
  acquired w (history_of w ++ inputs x) = (Ok response, s') ->
  json_serializable response = false ->
  reply x w
  = (Raise (TypeError "keys must be str, int, float, bool or None"),
     remembering (history_of w ++ inputs x) w s').
Proof.
  intros Hacq Hjson. rewrite reply_run. cbv zeta. rewrite Hacq.
  unfold json_dumps. rewrite Hjson. reflexivity.
Qed.

(** A reply that raises has recorded the caller's input and nothing else:
    the memory is the old one followed by the input. *)
Theorem reply_failure_keeps_input (x : option Msg)
    (w w' : world model_obj svc) (e : exn) :
  reply x w = (Raise e, w') ->
  history_of w' = history_of w ++ inputs x.
Proof.
  rewrite reply_run. cbv zeta.
  destruct (acquired w _) as [[response|e0] s'].
  - destruct (json_dumps response).
    + destruct (build _ response); [discriminate|].
      intros [= _ <-]. reflexivity.
    + intros [= _ <-]. reflexivity.
  - intros [= _ <-]. reflexivity.
Qed.

(** Whether it returns or raises, [reply] leaves the configuration of the
    agent as it was and only appends to the memory, at most two
    messages. *)
Theorem reply_keeps_configuration (x : option Msg)
    (w : world model_obj svc) :
  let a := self w in
  let a' := self (snd (reply x w)) in
  name (base a') = name (base a)
  /\ sys_prompt (base a') = sys_prompt (base a)
  /\ model (base a') = model (base a)
  /\ parse_func a' = parse_func a
  /\ fault_handler a' = fault_handler a
  /\ max_retries a' = max_retries a
  /\ engine a' = engine a
  /\ exists added,
      memory (base a') = memory (base a) ++ added /\ length added <= 2.
Proof.
  cbv zeta. rewrite reply_run. cbv zeta.
  assert (Hin : length (inputs x) <= 1) by (destruct x; simpl; lia).
  destruct (acquired w _) as [[response|e0] s'];
    [destruct (json_dumps response);
     [destruct (build _ response) as [msg|e1]|]|];
    simpl; repeat split; try reflexivity.
  - exists (inputs x ++ [msg]). rewrite app_assoc. split; [reflexivity|].
    rewrite length_app. simpl. lia.
  - exists (inputs x). split; [reflexivity|lia].
  - exists (inputs x). split; [reflexivity|lia].
  - exists (inputs x). split; [reflexivity|lia].
Qed.

(** Whether it returns or raises, [reply] calls the model wrapper once, on
    the prompt joined after the input is recorded, and leaves the service
    as that call left it. *)
Theorem reply_calls_model_once (x : option Msg) (w : world model_obj svc) :
  service (snd (reply x w))
  = snd (acquired w (history_of w ++ inputs x)).
Proof.
  rewrite reply_run. cbv zeta.
  destruct (acquired w _) as [[response|e0] s']; [|reflexivity].
  destruct (json_dumps response); [|reflexivity].
  destruct (build _ response); reflexivity.
Qed.

(** *** The reply cycle, the returning side *)

(** A built Message either has no additional fields, and then the record
    itself as display text, or has its own display text among its fields
    under ["speak"]. *)
Theorem build_fields_or_plain (sender : string) (response : value)
    (m : Msg) :
  build sender response = Ok m ->
  (msg_fields m = [] /\ msg_content m = response)
  \/ In ("speak", msg_content m) (msg_fields m).
Proof.
  destruct (has_speak response) eqn:Hsp.
  - destruct (has_speak_dict response Hsp) as (d & -> & Hin).
    destruct (build_speak msg_params sender d Hin) as (v & Hv & ->).
    intros Hcall. right.
    apply Msg_call_inv in Hcall as (_ & Hc & Hf).
    apply dict_get_In in Hv. rewrite <- Hf in Hv.
    apply in_map_iff in Hv as ([k x0] & Heq & Hkx).
    simpl in Heq. injection Heq as -> ->. rewrite Hc. exact Hkx.
  - rewrite (build_plain msg_params sender response Hsp).
    intros [= <-]. left. auto.
Qed.

(** The Message [reply] returns carries the agent's name as its sender and
    is the last entry of the memory. *)
Theorem reply_returns_recorded_message (x : option Msg)
    (w w' : world model_obj svc) (m : Msg) :
  reply x w = (Ok m, w') ->
  msg_name m = name (base (self w))
  /\ forall d, last (history_of w') d = m.
Proof.
  intros Hrun.
  apply reply_returned in Hrun as (response & s' & _ & _ & Hb & ->).
  apply build_content in Hb as [Hname _].
  split; [exact Hname|]. intros d. simpl. apply last_last.
Qed.

(** The builder on a record of the default fault handler. *)
Lemma build_fallback_record (sender raw : string) :
  existsb (String.eqb "speak") msg_params = false ->
  build sender (default_fault_handler raw)
  = Ok {| msg_name := sender; msg_content := VStr raw;
          msg_fields := [("speak", VStr raw)] |}.
Proof.
  intros Hfree. unfold default_fault_handler.
  destruct (build_speak msg_params sender [(VStr "speak", VStr raw)] eq_refl)
    as (v & Hv & ->).
  vm_compute in Hv. injection Hv as <-.
  unfold Msg_call. cbn [keywords existsb fst].
  rewrite Hfree. reflexivity.
Qed.

(** When the model wrapper hands over what the default fault handler makes
    of a raw text, [reply] returns a Message with that text as display
    text and the single field ["speak"], provided ["speak"] names no
    parameter of the Message constructor bound positionally. *)
Theorem reply_on_fallback_record (x : option Msg) (w : world model_obj svc)
    (raw : string) (s' : svc) :
  existsb (String.eqb "speak") msg_params = false ->
  acquired w (history_of w ++ inputs x)
  = (Ok (default_fault_handler raw), s') ->
  let m := {| msg_name := name (base (self w));
              msg_content := VStr raw;
              msg_fields := [("speak", VStr raw)] |} in
  reply x w
  = (Ok m, remembering ((history_of w ++ inputs x) ++ [m]) w s').
Proof.
  intros Hfree Hacq. cbv zeta. rewrite reply_run. cbv zeta. rewrite Hacq.
  rewrite (build_fallback_record (name (base (self w))) raw Hfree).
  reflexivity.
Qed.

(** Two replies in a row: the second prompt is joined from a history that
    holds the first input and the first answer, and the memory ends with
    both exchanges in order. *)
Theorem reply_twice (x1 x2 : option Msg) (w w1 w2 : world model_obj svc)
    (m1 m2 : Msg) :
  reply x1 w = (Ok m1, w1) ->
  reply x2 w1 = (Ok m2, w2) ->
  history_of w2
  = history_of w ++ inputs x1 ++ [m1] ++ inputs x2 ++ [m2]
  /\ exists response s',
      acquired w1 (history_of w ++ inputs x1 ++ [m1] ++ inputs x2)
      = (Ok response, s')
      /\ build (name (base (self w))) response = Ok m2.
Proof.
  intros Hfirst Hsecond.
  apply reply_returned in Hfirst as (r1 & s1 & _ & _ & _ & ->).
  apply reply_returned in Hsecond as (r2 & s2 & Hacq & _ & Hb & ->).
  simpl in *. repeat rewrite <- app_assoc in *. simpl in *.
  split; [reflexivity|]. eauto.
Qed.

(** *** Construction *)

(** The parse function, the fault handler and the retry budget the caller
    gives are stored as they are, an explicit [None] included: the
    defaults apply to arguments left out only.  The prompt type the caller
    gives is handed as it is, with [self.model], to the constructor of
    the prompt engine, and the agent holds the engine that call made. *)
Theorem construct_stores_arguments (args : init_args model_obj)
    (a : DictDialogAgent model_obj) :
  construct args = Ok a ->
  (forall given, arg_parse_func args = Some given -> parse_func a = given)
  /\ (forall given,
        arg_fault_handler args = Some given -> fault_handler a = given)
  /\ (forall given,
        arg_max_retries args = Some given -> max_retries a = given)
  /\ (forall given,
        arg_prompt_type args = Some given ->
        prompt_engine_init (self_model (base a)) given = Ok (engine a)).
Proof.
  unfold construct, init.
  destruct (arg_name args) as [n|]; [|discriminate].
  destruct (agent_base_init _ _ _ _ _ _) as [b|e0]; [|discriminate].
  destruct (prompt_engine_init _ _) as [en|e1] eqn:Hengine; [|discriminate].
  intros [= <-]. simpl.
  repeat split; intros given Hgiven; rewrite Hgiven in *;
    solve [reflexivity | exact Hengine].
Qed.


End AgentBehaviour.

(** * The further behaviour on the concrete agents *)

Module MoreRuns.

Import Example Cases.

(** The key [7] beside ["speak"]: the builder raises for the key that is
    not a string. *)
Lemma build_raises_only_run :
  has_speak (VDict hi_seven) = true
  /\ ((string_keyed hi_seven = false
       /\ TypeError "keywords must be strings"
          = TypeError "keywords must be strings")
      \/ (string_keyed hi_seven = true
          /\ collides params hi_seven = true
          /\ TypeError "keywords must be strings"
             = TypeError "got multiple values for argument")).
Proof.
  exact (@build_raises_only params "agent" (VDict hi_seven)
           (TypeError "keywords must be strings") eq_refl).
Defined.

(** The model wrapper raises on the budget [-1]; so does [reply], with
    the question recorded. *)
Lemma reply_propagates_model_error_run :
  reply (Some question) (put negative_agent ["x"])
  = (Raise (TypeError "negative retry budget"),
     remembering [question] (put negative_agent ["x"]) (fresh ["x"])).
Proof.
  exact (@reply_propagates_model_error params _ _ _ join model_call
           (Some question) (put negative_agent ["x"])
           (TypeError "negative retry budget") (fresh ["x"]) eq_refl).
Defined.

(** A response keyed by a tuple is not a mapping with ["speak"], so the
    builder would take it; [reply] raises at the debug logging. *)
Lemma reply_raises_on_unloggable_response_run :
  spreadable params (VDict [(VTuple [VInt 1; VInt 2], VStr "x")]) = true
  /\ fst (reply None (put pair_agent ["any text"]))
     = Raise (TypeError "keys must be str, int, float, bool or None").
Proof.
  split; [reflexivity|].
  exact (f_equal fst
    (@reply_raises_on_unloggable_response params _ _ _ join model_call
       None (put pair_agent ["any text"])
       (VDict [(VTuple [VInt 1; VInt 2], VStr "x")])
       {| oracle_state := []; calls := [payload] |} eq_refl eq_refl)).
Defined.

(** The reply to a text with the key ["name"] raises, and the memory holds
    the question alone. *)
Lemma reply_failure_keeps_input_run :
  memory (base (self (snd (reply (Some question)
                                 (facing ["{speak: hi, name: Bob}"])))))
  = [question].
Proof.
  exact (@reply_failure_keeps_input params _ _ _ join model_call
           (Some question) (facing ["{speak: hi, name: Bob}"])
           (snd (reply (Some question) (facing ["{speak: hi, name: Bob}"])))
           (TypeError "got multiple values for argument") eq_refl).
Defined.

(** A key that names the parameter of the instance: the builder raises on
    it as on any other parameter bound by position. *)
Example build_refuses_instance_name :
  build "agent" (VDict [(VStr "speak", VStr "hi"); (VStr "self", VInt 1)])
  = Raise (TypeError "got multiple values for argument")
  /\ spreadable params
       (VDict [(VStr "speak", VStr "hi"); (VStr "self", VInt 1)])
     = false.
Proof. split; reflexivity. Qed.

(** The Message built from the record of the example has its display text
    under ["speak"]. *)
Lemma build_fields_or_plain_run :
  (msg_fields hi_message = [] /\ msg_content hi_message = VDict hi_happy)
  \/ In ("speak", msg_content hi_message) (msg_fields hi_message).
Proof.
  exact (@build_fields_or_plain params "agent" (VDict hi_happy) hi_message
           eq_refl).
Defined.

(** The answer to the question: sent by the agent, last in the memory. *)
Lemma reply_returns_recorded_message_run :
  msg_name hi_message = "agent"
  /\ forall d,
      last (memory (base (self (snd (reply (Some question)
                                (facing ["{speak: hi, mood: happy}"])))))) d
      = hi_message.
Proof.
  exact (@reply_returns_recorded_message params _ _ _ join model_call
           (Some question) (facing ["{speak: hi, mood: happy}"])
           (snd (reply (Some question) (facing ["{speak: hi, mood: happy}"])))
           hi_message eq_refl).
Defined.

(** Four rejected texts against three retries: the wrapper hands over the
    fallback on the last one and the reply speaks it. *)
Lemma reply_on_fallback_record_run :
  fst (reply None (facing ["oops"; "oops"; "oops"; "last"; "unused"]))
  = Ok last_message.
Proof.
  exact (f_equal fst
    (@reply_on_fallback_record params _ _ _ join model_call None
       (facing ["oops"; "oops"; "oops"; "last"; "unused"]) "last"
       {| oracle_state := ["unused"];
          calls := [payload; payload; payload; payload] |}
       eq_refl eq_refl)).
Defined.

(** A question and a follow-up: the memory holds both exchanges in
    order. *)
Lemma reply_twice_run :
  memory (base (self (snd (reply (Some follow_up)
    (snd (reply (Some question)
                (facing ["{speak: hi, mood: happy}"; "42"])))))))
  = [question; hi_message; follow_up; plain_number_message].
Proof.
  exact (proj1
    (@reply_twice params _ _ _ join model_call
       (Some question) (Some follow_up)
       (facing ["{speak: hi, mood: happy}"; "42"])
       (snd (reply (Some question)
                   (facing ["{speak: hi, mood: happy}"; "42"])))
       (snd (reply (Some follow_up)
              (snd (reply (Some question)
                          (facing ["{speak: hi, mood: happy}"; "42"])))))
       hi_message plain_number_message eq_refl eq_refl)).
Defined.

(** [parse_func=None] is kept: the agent has no parse function. *)
Lemma construct_stores_arguments_run : parse_func parserless_agent = None.
Proof.
  exact (proj1
    (@construct_stores_arguments _ base_init engine_init loads
       without_parser parserless_agent eq_refl) None eq_refl).
Defined.


End MoreRuns.
